(** * Azure OpenAI endpoint utilities (api/utils/azureUtils.js)

    A shallow embedding of the five exported functions of the module:
    [sanitizeModelName], [genAzureEndpoint], [genAzureChatCompletion],
    [getAzureCredentials] and [sendChatMessage], followed by the properties
    of the specification that concern them.

    Conventions of the embedding:
    - a JavaScript value that is either a string or [undefined] (an
      environment variable, a destructured property) is an [option string];
    - [process.env] is a finite map from variable names to strings;
    - a synchronous function that logs and may throw is a value of [Sync];
    - the [async] function is a value of [Async]: a tree whose only
      suspension point is the awaited [axios.post];
    - [axios.post] itself is not part of the module: its outcome (resolved
      with a response, or rejected with an error) is supplied from outside. *)

From Stdlib Require Import ZArith Ascii String List Bool Lia.
From stdpp Require Import base option gmap strings list.

Import ListNotations.
Local Open Scope string_scope.

(** ** JavaScript strings and string-or-undefined values *)

Module Js.

(** [!v] is false exactly for a non-empty string: [undefined] and the
    empty string are the falsy values among strings-or-undefined. *)
Definition truthy (v : option string) : bool :=
  match v with
  | Some s => negb (String.eqb s "")
  | None => false
  end.

(** The string a template literal substitutes for [${v}]. *)
Definition template (v : option string) : string :=
  match v with
  | Some s => s
  | None => "undefined"
  end.

(** [s.replace(/c/g, rep)] for a pattern that matches the single literal
    character [c]: every occurrence is replaced, left to right. *)
Fixpoint replace_char_global (c : ascii) (rep : string) (s : string) : string :=
  match s with
  | EmptyString => EmptyString
  | String a rest =>
      if Ascii.eqb a c
      then rep ++ replace_char_global c rep rest
      else String a (replace_char_global c rep rest)
  end.

(** Number of occurrences of a character. *)
Fixpoint count_char (c : ascii) (s : string) : nat :=
  match s with
  | EmptyString => 0
  | String a rest => (if Ascii.eqb a c then 1 else 0) + count_char c rest
  end.

(** [s.includes(c)] for a single character. *)
Fixpoint includes_char (c : ascii) (s : string) : bool :=
  match s with
  | EmptyString => false
  | String a rest => Ascii.eqb a c || includes_char c rest
  end.

End Js.

(** ** sanitizeModelName *)

Definition period : ascii := "."%char.

(** [modelName.replace(/\./g, '')].  The pattern matches the one code unit of
    the period, in a JavaScript string as in the byte strings used here,
    where no other character's encoding contains that byte. *)
Definition sanitizeModelName (modelName : string) : string :=
  Js.replace_char_global period "" modelName.

(** [RemovesOnlyPeriods s t]: [t] is [s] read left to right with each
    period dropped and every other character kept as it is. *)
Inductive RemovesOnlyPeriods : string -> string -> Prop :=
| rop_end : RemovesOnlyPeriods "" ""
| rop_drop s t :
    RemovesOnlyPeriods s t -> RemovesOnlyPeriods (String period s) t
| rop_keep c s t :
    c <> period -> RemovesOnlyPeriods s t ->
    RemovesOnlyPeriods (String c s) (String c t).

(** The characters of a string, in order. *)
Definition chars (s : string) : list ascii := list_ascii_of_string s.

(** ** Credentials and the process environment *)

(** The [AzureCredentials] object.  Each property is read from
    [process.env], so each one is a string or [undefined]. *)
Record AzureCredentials : Type := {
  azureOpenAIApiKey : option string;
  azureOpenAIApiInstanceName : option string;
  azureOpenAIApiDeploymentName : option string;
  azureOpenAIApiVersion : option string
}.

(** The four variables [getAzureCredentials] reads. *)
Definition required_variables : list string :=
  ["AZURE_API_KEY"; "AZURE_OPENAI_API_INSTANCE_NAME";
   "AZURE_OPENAI_API_DEPLOYMENT_NAME"; "AZURE_OPENAI_API_VERSION"].

(** [process.env.name] is set to a non-empty string. *)
Definition provided (env : gmap string string) (name value : string) : Prop :=
  env !! name = Some value /\ value <> "".

(** [process.env.name] is missing or empty. *)
Definition missing (env : gmap string string) (name : string) : Prop :=
  env !! name = None \/ env !! name = Some "".

(** A value that is absent or the empty string. *)
Definition empty_or_absent (v : option string) : Prop :=
  v = None \/ v = Some "".

(** The outbound wire protocol of the specification: the URL of the
    chat-completion endpoint ... *)
Definition chat_completions_url (instance deployment version : string) : string :=
  "https://" ++ instance ++ ".openai.azure.com/openai/deployments/"
  ++ deployment ++ "/chat/completions?api-version=" ++ version.

(** ... and the two request headers. *)
Definition request_headers (apiKey : string) : list (string * string) :=
  [("Content-Type", "application/json"); ("Authorization", "Bearer " ++ apiKey)].

(** Reading a URL back: [url.split('/')] and the path segment that follows
    the segment [deployments]. *)
Fixpoint split_char (sep : ascii) (s : string) : list string :=
  match s with
  | EmptyString => [""]
  | String a rest =>
      if Ascii.eqb a sep then "" :: split_char sep rest
      else match split_char sep rest with
           | seg :: segs => String a seg :: segs
           | [] => [String a ""]
           end
  end.



(** An environment with the four variables set, and one without the key. *)
Module Sample.

Definition env : gmap string string :=
  <["AZURE_API_KEY" := "x"]>
    (<["AZURE_OPENAI_API_INSTANCE_NAME" := "foo"]>
       (<["AZURE_OPENAI_API_DEPLOYMENT_NAME" := "bar"]>
          (<["AZURE_OPENAI_API_VERSION" := "2023-05-15"]> ∅))).

Definition env_without_key : gmap string string := delete "AZURE_API_KEY" env.


(** The same environment with one more variable, and without the
    version. *)
Definition env_with_extra : gmap string string := <["HOME" := "/root"]> env.

Definition env_without_version : gmap string string :=
  delete "AZURE_OPENAI_API_VERSION" env.

End Sample.

Definition endpoint_error_message : string :=
  "Azure OpenAI API instance name and deployment name must be provided.".

Definition environment_error_message : string :=
  "Invalid environment configuration.".

Section AzureUtils.

(** The payload types the module never looks into: the message handed to
    [sendChatMessage], the decoded response body, the response headers and
    the request object axios attaches to an error. *)
Context {Message Data Headers ClientRequest : Type}.

(** *** Values exchanged with axios *)

(** The response object of axios, as far as the module reads it. *)
Record AxiosResponse : Type := {
  data : Data;
  status : Z;
  headers : Headers
}.

(** A thrown value: an [Error] with its [message], and the two properties
    axios adds to the errors it rejects with, [response] (present when the
    server answered) and [request] (present when a request was made). *)
Record JsError : Type := {
  message : string;
  response : option AxiosResponse;
  request : option ClientRequest
}.

(** [new Error(msg)] *)
Definition new_Error (msg : string) : JsError :=
  {| message := msg; response := None; request := None |}.

(** The third argument of [axios.post]: [{ headers: {...} }], the header
    object as its list of properties in source order. *)
Record AxiosConfig : Type := {
  config_headers : list (string * string)
}.

(** How a promise settles. *)
Inductive PromiseState (A : Type) : Type :=
| fulfilled (value : A)
| rejected (reason : JsError).
Arguments fulfilled {A} value.
Arguments rejected {A} reason.

(** *** Console output *)

Inductive LogArg : Type :=
| AStr (s : string)
| ACredentials (c : AzureCredentials)
| AData (d : Data)
| AStatus (n : Z)
| AHeaders (h : Headers)
| ARequest (r : ClientRequest).

Inductive Console : Type :=
| console_log (args : list LogArg)
| console_error (args : list LogArg).

(** *** Synchronous code: console output, then a value or a throw *)

Definition Sync (A : Type) : Type := (list Console * (JsError + A))%type.

Definition sync_ret {A} (a : A) : Sync A := ([], inr a).

Definition sync_throw {A} (e : JsError) : Sync A := ([], inl e).

Definition sync_console (l : Console) : Sync unit := ([l], inr tt).

Definition sync_bind {A B} (m : Sync A) (f : A -> Sync B) : Sync B :=
  match m with
  | (out, inl e) => (out, inl e)
  | (out, inr a) => let (out', r) := f a in ((out ++ out')%list, r)
  end.

(** *** Asynchronous code

    The body of an [async] function as a tree: it settles its promise,
    writes to the console, or suspends on [await axios.post(url, body,
    config)] and goes on with the way that promise settled. *)
Inductive Async (A : Type) : Type :=
| Settle (s : PromiseState A)
| Write (l : Console) (k : Async A)
| AwaitPost (url : string) (body : Message) (config : AxiosConfig)
            (k : PromiseState AxiosResponse -> Async A).
Arguments Settle {A} s.
Arguments Write {A} l k.
Arguments AwaitPost {A} url body config k.

Fixpoint async_bind {A B} (m : Async A) (f : A -> Async B) : Async B :=
  match m with
  | Settle (fulfilled a) => f a
  | Settle (rejected e) => Settle (rejected e)
  | Write l k => Write l (async_bind k f)
  | AwaitPost url body config k =>
      AwaitPost url body config (fun o => async_bind (k o) f)
  end.

(** [try { body } catch (error) { handler }] *)
Fixpoint try_catch {A} (body : Async A) (handler : JsError -> Async A) : Async A :=
  match body with
  | Settle (fulfilled a) => Settle (fulfilled a)
  | Settle (rejected e) => handler e
  | Write l k => Write l (try_catch k handler)
  | AwaitPost url body' config k =>
      AwaitPost url body' config (fun o => try_catch (k o) handler)
  end.

(** A call of a synchronous function from the [async] body. *)
Definition call {A} (m : Sync A) : Async A :=
  fold_right Write
    (Settle (match snd m with inl e => rejected e | inr a => fulfilled a end))
    (fst m).

(** [await axios.post(url, body, config)]: a rejection is thrown at the
    [await], a fulfilment is its value. *)
Definition await_axios_post (url : string) (body : Message) (config : AxiosConfig)
  : Async AxiosResponse :=
  AwaitPost url body config Settle.

Definition console (l : Console) : Async unit := Write l (Settle (fulfilled tt)).

Definition throw {A} (e : JsError) : Async A := Settle (rejected e).

Notation "'do' x <- m ; k" := (sync_bind m (fun x => k))
  (at level 10, x name, m at level 100, k at level 200, only parsing).
Notation "'async' x <- m ; k" := (async_bind m (fun x => k))
  (at level 10, x name, m at level 100, k at level 200, only parsing).

(** *** The functions of the module *)

(** [genAzureEndpoint({ azureOpenAIApiInstanceName,
    azureOpenAIApiDeploymentName })]: the two destructured properties are
    the two arguments. *)
Definition genAzureEndpoint
    (azureOpenAIApiInstanceName azureOpenAIApiDeploymentName : option string)
  : Sync string :=
  if negb (Js.truthy azureOpenAIApiInstanceName)
     || negb (Js.truthy azureOpenAIApiDeploymentName)
  then sync_throw (new_Error endpoint_error_message)
  else sync_ret ("https://" ++ Js.template azureOpenAIApiInstanceName
                 ++ ".openai.azure.com/openai/deployments/"
                 ++ Js.template azureOpenAIApiDeploymentName).

Definition genAzureChatCompletion (credentials : AzureCredentials) : Sync string :=
  let instanceName := azureOpenAIApiInstanceName credentials in
  let deploymentName := azureOpenAIApiDeploymentName credentials in
  let apiVersion := azureOpenAIApiVersion credentials in
  do base <- genAzureEndpoint instanceName deploymentName;
  let endpoint := base ++ "/chat/completions?api-version=" ++ Js.template apiVersion in
  do _ <- sync_console (console_log [AStr ("Generated Endpoint: " ++ endpoint)]);
  sync_ret endpoint.

Definition getAzureCredentials (env : gmap string string) : Sync AzureCredentials :=
  let credentials :=
    {| azureOpenAIApiKey := env !! "AZURE_API_KEY";
       azureOpenAIApiInstanceName := env !! "AZURE_OPENAI_API_INSTANCE_NAME";
       azureOpenAIApiDeploymentName := env !! "AZURE_OPENAI_API_DEPLOYMENT_NAME";
       azureOpenAIApiVersion := env !! "AZURE_OPENAI_API_VERSION" |} in
  if negb (Js.truthy (azureOpenAIApiKey credentials))
     || negb (Js.truthy (azureOpenAIApiInstanceName credentials))
     || negb (Js.truthy (azureOpenAIApiDeploymentName credentials))
     || negb (Js.truthy (azureOpenAIApiVersion credentials))
  then
    do _ <- sync_console
              (console_error
                 [AStr "One or more environment variables are missing or invalid:";
                  ACredentials credentials]);
    sync_throw (new_Error environment_error_message)
  else sync_ret credentials.

(** The [catch (error) { ... }] block of [sendChatMessage]. *)
Definition sendChatMessage_catch (error : JsError) : Async Data :=
  async _ <- console
    (console_error
       [AStr "Error sending chat message:";
        match response error with
        | Some r => AData (data r)
        | None => AStr (message error)
        end]);
  async _ <-
    match response error with
    | Some r =>
        async _ <- console (console_error [AData (data r)]);
        async _ <- console (console_error [AStatus (status r)]);
        console (console_error [AHeaders (headers r)])
    | None =>
        match request error with
        | Some rq => console (console_error [ARequest rq])
        | None => console (console_error [AStr "Error"; AStr (message error)])
        end
    end;
  throw error.

Definition sendChatMessage (env : gmap string string) (message : Message) : Async Data :=
  async credentials <- call (getAzureCredentials env);
  async endpoint <- call (genAzureChatCompletion credentials);
  try_catch
    (async response <-
       await_axios_post endpoint message
         {| config_headers :=
              [("Content-Type", "application/json");
               ("Authorization",
                "Bearer " ++ Js.template (azureOpenAIApiKey credentials))] |};
     async _ <- console (console_log [AStr "Response:"; AData (data response)]);
     Settle (fulfilled (data response)))
    sendChatMessage_catch.

(** *** Running an [async] body against the outside world *)

(** What an execution does that can be observed from outside. *)
Inductive Event : Type :=
| EvConsole (l : Console)
| EvPost (url : string) (body : Message) (config : AxiosConfig).

(** [axios] tells how the promise of each [axios.post] call settles. *)
Fixpoint run {A} (axios : string -> Message -> AxiosConfig -> PromiseState AxiosResponse)
    (p : Async A) : list Event * PromiseState A :=
  match p with
  | Settle s => ([], s)
  | Write l k => let (evs, s) := run axios k in (EvConsole l :: evs, s)
  | AwaitPost url body config k =>
      let (evs, s) := run axios (k (axios url body config)) in
      (EvPost url body config :: evs, s)
  end.

(** The POST requests among the events, in order. *)
Definition posts (evs : list Event) : list (string * Message * AxiosConfig) :=
  omap (fun ev => match ev with
                  | EvPost url body config => Some (url, body, config)
                  | EvConsole _ => None
                  end) evs.

(** The part of the body that runs before the first [await]: [Some] when
    the promise is settled there, with the console output so far. *)
Fixpoint settles_before_await {A} (p : Async A)
  : option (list Console * PromiseState A) :=
  match p with
  | Settle s => Some ([], s)
  | Write l k =>
      match settles_before_await k with
      | Some (out, s) => Some (l :: out, s)
      | None => None
      end
  | AwaitPost _ _ _ _ => None
  end.

(** *** Error kinds of the specification *)

(** A configuration error is one of the two plain [Error]s the module
    throws itself; it has neither [response] nor [request]. *)
Inductive ConfigurationError : JsError -> Prop :=
| names_not_provided : ConfigurationError (new_Error endpoint_error_message)
| invalid_environment : ConfigurationError (new_Error environment_error_message).

(** The two ways a request fails, as the [catch] block tells them apart. *)
Inductive FailureMode : Type :=
| ServerResponded (r : AxiosResponse)
| NoResponse (msg : string).

Definition failure_mode (error : JsError) : FailureMode :=
  match response error with
  | Some r => ServerResponded r
  | None => NoResponse (message error)
  end.

(** The console output of the [catch] block for each failure mode. *)
Definition diagnostics (error : JsError) : list Console :=
  match failure_mode error with
  | ServerResponded r =>
      [console_error [AStr "Error sending chat message:"; AData (data r)];
       console_error [AData (data r)];
       console_error [AStatus (status r)];
       console_error [AHeaders (headers r)]]
  | NoResponse msg =>
      [console_error [AStr "Error sending chat message:"; AStr msg];
       match request error with
       | Some rq => console_error [ARequest rq]
       | None => console_error [AStr "Error"; AStr msg]
       end]
  end.


(** ** Properties *)

(** *** Strings and truthiness *)

Lemma append_empty (b : string) : "" ++ b = b.
Proof. reflexivity. Qed.

Lemma append_cons (x : ascii) (a b : string) : String x a ++ b = String x (a ++ b).
Proof. reflexivity. Qed.

Lemma append_assoc (a b c : string) : (a ++ b) ++ c = a ++ b ++ c.
Proof.
  induction a as [|x a IH]; [reflexivity|].
  rewrite !append_cons. now rewrite IH.
Qed.

Lemma append_length (a b : string) :
  String.length (a ++ b) = String.length a + String.length b.
Proof.
  induction a as [|x a IH]; [reflexivity|].
  rewrite append_cons. simpl. now rewrite IH.
Qed.

Lemma truthy_Some (s : string) : s <> "" -> Js.truthy (Some s) = true.
Proof.
  intros Hs. simpl. apply negb_true_iff. now apply String.eqb_neq.
Qed.

Lemma truthy_false (v : option string) :
  Js.truthy v = false <-> empty_or_absent v.
Proof.
  unfold empty_or_absent. destruct v as [s|]; simpl.
  - rewrite negb_false_iff, String.eqb_eq. split.
    + intros ->. now right.
    + intros [H|H]; [discriminate | now inversion H].
  - split; [now left | reflexivity].
Qed.

Lemma truthy_true (v : option string) :
  Js.truthy v = true <-> exists s, v = Some s /\ s <> "".
Proof.
  destruct v as [s|]; simpl.
  - rewrite negb_true_iff, String.eqb_neq. split.
    + intros H. now exists s.
    + intros (s' & E & H). now inversion E; subst.
  - split; [discriminate | intros (s & E & _); discriminate].
Qed.

Lemma missing_truthy (env : gmap string string) (name : string) :
  missing env name <-> Js.truthy (env !! name) = false.
Proof. symmetry. apply truthy_false. Qed.

Lemma provided_lookup (env : gmap string string) (name value : string) :
  provided env name value -> env !! name = Some value /\ Js.truthy (env !! name) = true.
Proof.
  intros [E H]. split; [exact E|]. rewrite E. now apply truthy_Some.
Qed.

(** *** The synchronous functions *)

Lemma genAzureEndpoint_ok (i d : string) :
  i <> "" -> d <> "" ->
  genAzureEndpoint (Some i) (Some d)
  = ([], inr ("https://" ++ i ++ ".openai.azure.com/openai/deployments/" ++ d)).
Proof.
  intros Hi Hd. unfold genAzureEndpoint.
  rewrite (truthy_Some i Hi), (truthy_Some d Hd). reflexivity.
Qed.

Lemma genAzureEndpoint_throws (oi od : option string) :
  empty_or_absent oi \/ empty_or_absent od ->
  genAzureEndpoint oi od = ([], inl (new_Error endpoint_error_message)).
Proof.
  intros H. unfold genAzureEndpoint.
  destruct H as [H|H]; apply truthy_false in H; rewrite H; simpl;
    [reflexivity | now rewrite orb_true_r].
Qed.

Lemma genAzureEndpoint_cases (oi od : option string) :
  (exists i d, oi = Some i /\ od = Some d /\ i <> "" /\ d <> "")
  \/ (empty_or_absent oi \/ empty_or_absent od).
Proof.
  destruct (Js.truthy oi) eqn:Ei; [|right; left; now apply truthy_false].
  destruct (Js.truthy od) eqn:Ed; [|right; right; now apply truthy_false].
  apply truthy_true in Ei as (i & -> & Hi).
  apply truthy_true in Ed as (d & -> & Hd).
  left. now exists i, d.
Qed.

Lemma genAzureChatCompletion_ok (k v : option string) (i d : string) :
  i <> "" -> d <> "" ->
  genAzureChatCompletion
    {| azureOpenAIApiKey := k; azureOpenAIApiInstanceName := Some i;
       azureOpenAIApiDeploymentName := Some d; azureOpenAIApiVersion := v |}
  = ([console_log
        [AStr ("Generated Endpoint: " ++ chat_completions_url i d (Js.template v))]],
     inr (chat_completions_url i d (Js.template v))).
Proof.
  intros Hi Hd. unfold genAzureChatCompletion. cbn [azureOpenAIApiInstanceName
    azureOpenAIApiDeploymentName azureOpenAIApiVersion].
  rewrite (genAzureEndpoint_ok i d Hi Hd).
  unfold sync_bind, sync_console, sync_ret, chat_completions_url.
  cbn [app].
  replace (("https://" ++ i ++ ".openai.azure.com/openai/deployments/" ++ d)
           ++ "/chat/completions?api-version=" ++ Js.template v)
    with ("https://" ++ i ++ ".openai.azure.com/openai/deployments/" ++ d
          ++ "/chat/completions?api-version=" ++ Js.template v).
  - reflexivity.
  - rewrite !append_assoc. reflexivity.
Qed.

Lemma getAzureCredentials_ok (env : gmap string string) (k i d v : string) :
  provided env "AZURE_API_KEY" k ->
  provided env "AZURE_OPENAI_API_INSTANCE_NAME" i ->
  provided env "AZURE_OPENAI_API_DEPLOYMENT_NAME" d ->
  provided env "AZURE_OPENAI_API_VERSION" v ->
  getAzureCredentials env
  = ([], inr {| azureOpenAIApiKey := Some k;
                azureOpenAIApiInstanceName := Some i;
                azureOpenAIApiDeploymentName := Some d;
                azureOpenAIApiVersion := Some v |}).
Proof.
  intros Hk Hi Hd Hv.
  apply provided_lookup in Hk as [Ek Tk], Hi as [Ei Ti], Hd as [Ed Td],
    Hv as [Ev Tv].
  unfold getAzureCredentials.
  cbn [azureOpenAIApiKey azureOpenAIApiInstanceName
       azureOpenAIApiDeploymentName azureOpenAIApiVersion].
  rewrite Tk, Ti, Td, Tv. cbn [negb orb].
  now rewrite Ek, Ei, Ed, Ev.
Qed.

Lemma getAzureCredentials_throws (env : gmap string string) :
  Exists (missing env) required_variables ->
  getAzureCredentials env
  = ([console_error
        [AStr "One or more environment variables are missing or invalid:";
         ACredentials
           {| azureOpenAIApiKey := env !! "AZURE_API_KEY";
              azureOpenAIApiInstanceName := env !! "AZURE_OPENAI_API_INSTANCE_NAME";
              azureOpenAIApiDeploymentName := env !! "AZURE_OPENAI_API_DEPLOYMENT_NAME";
              azureOpenAIApiVersion := env !! "AZURE_OPENAI_API_VERSION" |}]],
     inl (new_Error environment_error_message)).
Proof.
  intros H. unfold required_variables in H.
  rewrite !Exists_cons, Exists_nil, !missing_truthy in H.
  unfold getAzureCredentials.
  cbn [azureOpenAIApiKey azureOpenAIApiInstanceName
       azureOpenAIApiDeploymentName azureOpenAIApiVersion].
  destruct H as [H|[H|[H|[H|[]]]]]; rewrite H; cbn [negb orb];
    rewrite ?orb_true_r; reflexivity.
Qed.

Lemma required_variables_cases (env : gmap string string) :
  (exists k i d v,
      provided env "AZURE_API_KEY" k
      /\ provided env "AZURE_OPENAI_API_INSTANCE_NAME" i
      /\ provided env "AZURE_OPENAI_API_DEPLOYMENT_NAME" d
      /\ provided env "AZURE_OPENAI_API_VERSION" v)
  \/ Exists (missing env) required_variables.
Proof.
  unfold required_variables. rewrite !Exists_cons, Exists_nil, !missing_truthy.
  destruct (Js.truthy (env !! "AZURE_API_KEY")) eqn:Ek; [|now right; left].
  destruct (Js.truthy (env !! "AZURE_OPENAI_API_INSTANCE_NAME")) eqn:Ei;
    [|now right; right; left].
  destruct (Js.truthy (env !! "AZURE_OPENAI_API_DEPLOYMENT_NAME")) eqn:Ed;
    [|now right; right; right; left].
  destruct (Js.truthy (env !! "AZURE_OPENAI_API_VERSION")) eqn:Ev;
    [|now right; right; right; right; left].
  apply truthy_true in Ek as (k & Ek & Hk), Ei as (i & Ei & Hi),
    Ed as (d & Ed & Hd), Ev as (v & Ev & Hv).
  left. exists k, i, d, v. unfold provided. auto.
Qed.

Lemma ConfigurationError_endpoint :
  ConfigurationError (new_Error endpoint_error_message).
Proof. constructor. Qed.

Lemma ConfigurationError_environment :
  ConfigurationError (new_Error environment_error_message).
Proof. constructor. Qed.

(** C4. For non-empty instance and deployment names [genAzureEndpoint]
    returns exactly
    "https://{instanceName}.openai.azure.com/openai/deployments/{deploymentName}";
    when either name is empty or absent it throws a configuration error
    and returns no string. *)
Theorem genAzureEndpoint_spec :
  (forall i d : string,
      i <> "" -> d <> "" ->
      genAzureEndpoint (Some i) (Some d)
      = ([], inr ("https://" ++ i ++ ".openai.azure.com/openai/deployments/" ++ d)))
  /\ (forall oi od : option string,
        empty_or_absent oi \/ empty_or_absent od ->
        exists e, genAzureEndpoint oi od = ([], inl e) /\ ConfigurationError e).
Proof.
  split.
  - exact genAzureEndpoint_ok.
  - intros oi od H. exists (new_Error endpoint_error_message).
    split; [now apply genAzureEndpoint_throws | constructor].
Qed.

(** C5. [genAzureChatCompletion] is [genAzureEndpoint] on the instance and
    deployment names with "/chat/completions?api-version={apiVersion}"
    appended; it throws exactly when [genAzureEndpoint] throws, with the
    same error, which is exactly when a name is empty or absent; the
    version is not validated: any string, the empty one included, is
    appended as it is. *)
Theorem genAzureChatCompletion_spec (c : AzureCredentials) :
  let endpoint :=
    snd (genAzureEndpoint (azureOpenAIApiInstanceName c)
                          (azureOpenAIApiDeploymentName c)) in
  snd (genAzureChatCompletion c)
  = match endpoint with
    | inl e => inl e
    | inr base =>
        inr (base ++ "/chat/completions?api-version="
                  ++ Js.template (azureOpenAIApiVersion c))
    end
  /\ (forall e, snd (genAzureChatCompletion c) = inl e <-> endpoint = inl e)
  /\ ((exists e, snd (genAzureChatCompletion c) = inl e)
      <-> empty_or_absent (azureOpenAIApiInstanceName c)
          \/ empty_or_absent (azureOpenAIApiDeploymentName c))
  /\ (forall base v : string,
        endpoint = inr base -> azureOpenAIApiVersion c = Some v ->
        snd (genAzureChatCompletion c)
        = inr (base ++ "/chat/completions?api-version=" ++ v)).
Proof.
  destruct c as [k oi od ov]. cbn zeta.
  cbn [azureOpenAIApiInstanceName azureOpenAIApiDeploymentName
       azureOpenAIApiVersion].
  assert (E : snd (genAzureChatCompletion
                     {| azureOpenAIApiKey := k; azureOpenAIApiInstanceName := oi;
                        azureOpenAIApiDeploymentName := od;
                        azureOpenAIApiVersion := ov |})
              = match snd (genAzureEndpoint oi od) with
                | inl e => inl e
                | inr base =>
                    inr (base ++ "/chat/completions?api-version=" ++ Js.template ov)
                end).
  { unfold genAzureChatCompletion.
    cbn [azureOpenAIApiInstanceName azureOpenAIApiDeploymentName
         azureOpenAIApiVersion].
    destruct (genAzureEndpoint oi od) as [out [e|base]]; reflexivity. }
  rewrite E. split; [reflexivity|].
  destruct (genAzureEndpoint_cases oi od) as [(i & d & -> & -> & Hi & Hd)|H].
  - rewrite (genAzureEndpoint_ok i d Hi Hd). cbn [snd].
    split; [intros e; split; discriminate|].
    split.
    + split.
      * intros [e He]. discriminate.
      * intros [H|H]; apply truthy_false in H;
          rewrite truthy_Some in H by assumption; discriminate.
    + intros base v Hb ->. inversion Hb; subst. reflexivity.
  - rewrite (genAzureEndpoint_throws oi od H). cbn [snd].
    split; [intros e; split; intros He; exact He|].
    split.
    + split; [intros _; exact H | intros _; eexists; reflexivity].
    + intros base v Hb. discriminate.
Qed.

(** C6. [getAzureCredentials] throws, and then a configuration error, if
    and only if one of the four environment variables is missing or empty;
    when all four are set to non-empty strings it returns the record of
    exactly these four values. *)
Theorem getAzureCredentials_spec (env : gmap string string) :
  ((exists e, snd (getAzureCredentials env) = inl e)
   <-> Exists (missing env) required_variables)
  /\ (forall e, snd (getAzureCredentials env) = inl e -> ConfigurationError e)
  /\ (forall k i d v : string,
        provided env "AZURE_API_KEY" k ->
        provided env "AZURE_OPENAI_API_INSTANCE_NAME" i ->
        provided env "AZURE_OPENAI_API_DEPLOYMENT_NAME" d ->
        provided env "AZURE_OPENAI_API_VERSION" v ->
        getAzureCredentials env
        = ([], inr {| azureOpenAIApiKey := Some k;
                      azureOpenAIApiInstanceName := Some i;
                      azureOpenAIApiDeploymentName := Some d;
                      azureOpenAIApiVersion := Some v |})).
Proof.
  split; [|split].
  - destruct (required_variables_cases env)
      as [(k & i & d & v & Hk & Hi & Hd & Hv)|H].
    + rewrite (getAzureCredentials_ok env k i d v Hk Hi Hd Hv). cbn [snd].
      split; [intros [e He]; discriminate|].
      intros H. exfalso. unfold required_variables in H.
      rewrite !Exists_cons, Exists_nil, !missing_truthy in H.
      apply provided_lookup in Hk as [_ Tk], Hi as [_ Ti], Hd as [_ Td],
        Hv as [_ Tv].
      destruct H as [H|[H|[H|[H|[]]]]]; congruence.
    + rewrite (getAzureCredentials_throws env H). cbn [snd].
      split; [intros _; exact H | intros _; eexists; reflexivity].
  - intros e He.
    destruct (required_variables_cases env)
      as [(k & i & d & v & Hk & Hi & Hd & Hv)|H].
    + rewrite (getAzureCredentials_ok env k i d v Hk Hi Hd Hv) in He.
      discriminate.
    + rewrite (getAzureCredentials_throws env H) in He. cbn [snd] in He.
      inversion He. constructor.
  - apply getAzureCredentials_ok.
Qed.

(** *** sendChatMessage *)

Section Run.

Variable axios : string -> Message -> AxiosConfig -> PromiseState AxiosResponse.

Lemma run_write {A} (l : Console) (p : Async A) :
  run axios (Write l p)
  = (EvConsole l :: fst (run axios p), snd (run axios p)).
Proof. cbn [run]. now destruct (run axios p). Qed.

Lemma run_catch (error : JsError) :
  run axios (sendChatMessage_catch error)
  = (map EvConsole (diagnostics error), rejected error).
Proof.
  unfold sendChatMessage_catch, diagnostics, failure_mode.
  destruct (response error) as [r|]; [reflexivity|].
  destruct (request error) as [rq|]; reflexivity.
Qed.

(** The [try] block with its [catch], for any endpoint and request
    configuration. *)
Lemma run_try (endpoint : string) (message : Message) (config : AxiosConfig) :
  run axios
    (try_catch
       (async response <- await_axios_post endpoint message config;
        async _ <- console (console_log [AStr "Response:"; AData (data response)]);
        Settle (fulfilled (data response)))
       sendChatMessage_catch)
  = match axios endpoint message config with
    | fulfilled r =>
        ([EvPost endpoint message config;
          EvConsole (console_log [AStr "Response:"; AData (data r)])],
         fulfilled (data r))
    | rejected error =>
        (EvPost endpoint message config :: map EvConsole (diagnostics error),
         rejected error)
    end.
Proof.
  cbn [await_axios_post async_bind try_catch run].
  destruct (axios endpoint message config) as [r|error].
  - reflexivity.
  - cbn [async_bind try_catch]. now rewrite run_catch.
Qed.

(** With the four variables set, one run of [sendChatMessage]: the
    endpoint is logged, one POST is issued, and the way axios settles it
    decides the rest. *)
Lemma run_sendChatMessage (env : gmap string string) (message : Message)
    (k i d v : string) :
  provided env "AZURE_API_KEY" k ->
  provided env "AZURE_OPENAI_API_INSTANCE_NAME" i ->
  provided env "AZURE_OPENAI_API_DEPLOYMENT_NAME" d ->
  provided env "AZURE_OPENAI_API_VERSION" v ->
  let url := chat_completions_url i d v in
  let config := {| config_headers := request_headers k |} in
  let generated := EvConsole (console_log [AStr ("Generated Endpoint: " ++ url)]) in
  run axios (sendChatMessage env message)
  = match axios url message config with
    | fulfilled r =>
        ([generated; EvPost url message config;
          EvConsole (console_log [AStr "Response:"; AData (data r)])],
         fulfilled (data r))
    | rejected error =>
        (generated :: EvPost url message config
           :: map EvConsole (diagnostics error),
         rejected error)
    end.
Proof.
  intros Hk Hi Hd Hv url config generated.
  unfold sendChatMessage.
  rewrite (getAzureCredentials_ok env k i d v Hk Hi Hd Hv).
  cbn [call fst snd fold_right async_bind].
  rewrite genAzureChatCompletion_ok by (apply Hi || apply Hd).
  cbn [call fst snd fold_right async_bind].
  rewrite run_write, run_try.
  change (chat_completions_url i d (Js.template (Some v))) with url.
  change {| config_headers :=
              [("Content-Type", "application/json");
               ("Authorization",
                "Bearer " ++ Js.template
                  (azureOpenAIApiKey
                     {| azureOpenAIApiKey := Some k;
                        azureOpenAIApiInstanceName := Some i;
                        azureOpenAIApiDeploymentName := Some d;
                        azureOpenAIApiVersion := Some v |}))] |}
    with config.
  destruct (axios url message config); reflexivity.
Qed.

Lemma run_sendChatMessage_missing (env : gmap string string) (message : Message) :
  Exists (missing env) required_variables ->
  run axios (sendChatMessage env message)
  = (map EvConsole (fst (getAzureCredentials env)),
     rejected (new_Error environment_error_message)).
Proof.
  intros H. unfold sendChatMessage.
  rewrite (getAzureCredentials_throws env H). reflexivity.
Qed.

End Run.

Lemma posts_console (out : list Console) : posts (map EvConsole out) = [].
Proof. induction out as [|l out IH]; [reflexivity | exact IH]. Qed.

Lemma posts_cons_console (l : Console) (evs : list Event) :
  posts (EvConsole l :: evs) = posts evs.
Proof. reflexivity. Qed.

Lemma posts_cons_post (url : string) (body : Message) (config : AxiosConfig)
    (evs : list Event) :
  posts (EvPost url body config :: evs) = (url, body, config) :: posts evs.
Proof. reflexivity. Qed.

(** C1. With the four variables set, when the POST is answered
    successfully, that is when axios fulfils its promise with a response
    [r] (which it does for a 2xx status), the promise of [sendChatMessage]
    is fulfilled with [r.data] itself, for every message. *)
Theorem sendChatMessage_resolves
    (axios : string -> Message -> AxiosConfig -> PromiseState AxiosResponse)
    (env : gmap string string) (message : Message) (k i d v : string)
    (r : AxiosResponse) :
  provided env "AZURE_API_KEY" k ->
  provided env "AZURE_OPENAI_API_INSTANCE_NAME" i ->
  provided env "AZURE_OPENAI_API_DEPLOYMENT_NAME" d ->
  provided env "AZURE_OPENAI_API_VERSION" v ->
  axios (chat_completions_url i d v) message
        {| config_headers := request_headers k |} = fulfilled r ->
  snd (run axios (sendChatMessage env message)) = fulfilled (data r).
Proof.
  intros Hk Hi Hd Hv Hr.
  rewrite (run_sendChatMessage axios env message k i d v Hk Hi Hd Hv).
  cbn zeta. now rewrite Hr.
Qed.

(** C2. With the four variables set, when the POST fails, that is when
    axios rejects its promise with an error, the promise of
    [sendChatMessage] is rejected with that very error, after the
    diagnostic detail has been written to the console: body, status and
    headers when the error has a response, the message (and the request
    when there is one) when it has none.  The error is passed on as it is,
    so the caller sees the same failure mode as the [catch] block. *)
Theorem sendChatMessage_rejects
    (axios : string -> Message -> AxiosConfig -> PromiseState AxiosResponse)
    (env : gmap string string) (payload : Message) (k i d v : string)
    (error : JsError) :
  provided env "AZURE_API_KEY" k ->
  provided env "AZURE_OPENAI_API_INSTANCE_NAME" i ->
  provided env "AZURE_OPENAI_API_DEPLOYMENT_NAME" d ->
  provided env "AZURE_OPENAI_API_VERSION" v ->
  axios (chat_completions_url i d v) payload
        {| config_headers := request_headers k |} = rejected error ->
  (exists reason,
      snd (run axios (sendChatMessage env payload)) = rejected reason
      /\ reason = error
      /\ failure_mode reason = failure_mode error)
  /\ (exists before,
        fst (run axios (sendChatMessage env payload))
        = (before ++ map EvConsole (diagnostics error))%list)
  /\ (forall r, response error = Some r ->
        failure_mode error = ServerResponded r
        /\ diagnostics error
           = [console_error [AStr "Error sending chat message:"; AData (data r)];
              console_error [AData (data r)];
              console_error [AStatus (status r)];
              console_error [AHeaders (headers r)]])
  /\ (response error = None ->
        failure_mode error = NoResponse (message error)
        /\ head (diagnostics error)
           = Some (console_error
                     [AStr "Error sending chat message:"; AStr (message error)])).
Proof.
  intros Hk Hi Hd Hv He.
  rewrite (run_sendChatMessage axios env payload k i d v Hk Hi Hd Hv).
  cbn zeta. rewrite He. cbn [fst snd].
  split; [exists error; auto|].
  split.
  - eexists [_; _]. reflexivity.
  - unfold diagnostics, failure_mode. split.
    + intros r ->. split; reflexivity.
    + intros ->. split; reflexivity.
Qed.

(** C3. When one of the four environment variables is missing or empty,
    [sendChatMessage] settles its promise before the first [await]: it is
    rejected with the configuration error of [getAzureCredentials], and
    whatever axios would do, no POST is issued. *)
Theorem sendChatMessage_configuration_error
    (env : gmap string string) (message : Message) :
  Exists (missing env) required_variables ->
  exists out e,
    settles_before_await (sendChatMessage env message) = Some (out, rejected e)
    /\ e = new_Error environment_error_message
    /\ ConfigurationError e
    /\ forall axios,
        run axios (sendChatMessage env message) = (map EvConsole out, rejected e)
        /\ posts (fst (run axios (sendChatMessage env message))) = [].
Proof.
  intros H.
  exists (fst (getAzureCredentials env)), (new_Error environment_error_message).
  split; [|split; [reflexivity|split; [constructor|]]].
  - unfold sendChatMessage. rewrite (getAzureCredentials_throws env H).
    reflexivity.
  - intros axios. rewrite (run_sendChatMessage_missing axios env message H).
    split; [reflexivity | apply posts_console].
Qed.

(** C9. With the four variables set, [sendChatMessage] issues exactly one
    POST, whatever axios answers: to the URL [genAzureChatCompletion]
    returns for the loaded credentials, with the headers Content-Type:
    application/json and Authorization: Bearer {key}, and with the
    caller's message itself as the body. *)
Theorem sendChatMessage_single_post
    (axios : string -> Message -> AxiosConfig -> PromiseState AxiosResponse)
    (env : gmap string string) (message : Message) (k i d v : string) :
  provided env "AZURE_API_KEY" k ->
  provided env "AZURE_OPENAI_API_INSTANCE_NAME" i ->
  provided env "AZURE_OPENAI_API_DEPLOYMENT_NAME" d ->
  provided env "AZURE_OPENAI_API_VERSION" v ->
  exists credentials url,
    snd (getAzureCredentials env) = inr credentials
    /\ azureOpenAIApiKey credentials = Some k
    /\ snd (genAzureChatCompletion credentials) = inr url
    /\ url = chat_completions_url i d v
    /\ posts (fst (run axios (sendChatMessage env message)))
       = [(url, message,
           {| config_headers :=
                [("Content-Type", "application/json");
                 ("Authorization", "Bearer " ++ k)] |})].
Proof.
  intros Hk Hi Hd Hv.
  eexists _, _.
  rewrite (getAzureCredentials_ok env k i d v Hk Hi Hd Hv).
  split; [reflexivity|]. split; [reflexivity|].
  rewrite genAzureChatCompletion_ok by (apply Hi || apply Hd).
  split; [reflexivity|]. split; [reflexivity|].
  rewrite (run_sendChatMessage axios env message k i d v Hk Hi Hd Hv).
  cbn zeta.
  destruct (axios _ _ _) as [r|error]; cbn [fst]; [reflexivity|].
  now rewrite posts_cons_console, posts_cons_post, posts_console.
Qed.

(** *** sanitizeModelName *)

Lemma sanitize_period (s : string) :
  sanitizeModelName (String period s) = sanitizeModelName s.
Proof. reflexivity. Qed.

Lemma sanitize_other (c : ascii) (s : string) :
  c <> period -> sanitizeModelName (String c s) = String c (sanitizeModelName s).
Proof.
  intros Hc. unfold sanitizeModelName. cbn [Js.replace_char_global].
  destruct (Ascii.eqb c period) eqn:E; [|reflexivity].
  apply Ascii.eqb_eq in E. contradiction.
Qed.

(** Reasoning by cases on the first character of a string. *)
Ltac first_char c :=
  destruct (ascii_dec c period) as [->|?];
  [rewrite ?sanitize_period | rewrite ?sanitize_other by assumption].

Lemma eqb_period_refl : Ascii.eqb period period = true.
Proof. reflexivity. Qed.

Lemma eqb_period_other (c : ascii) : c <> period -> Ascii.eqb c period = false.
Proof. intros Hc. now apply Ascii.eqb_neq. Qed.

Lemma sanitize_no_period (s : string) :
  Js.includes_char period (sanitizeModelName s) = false.
Proof.
  induction s as [|c s IH]; [reflexivity|].
  first_char c; [exact IH|].
  cbn [Js.includes_char]. now rewrite eqb_period_other, IH.
Qed.

Lemma sanitize_length (s : string) :
  String.length (sanitizeModelName s) + Js.count_char period s = String.length s.
Proof.
  induction s as [|c s IH]; [reflexivity|].
  first_char c; cbn [Js.count_char String.length].
  - rewrite eqb_period_refl. lia.
  - rewrite eqb_period_other by assumption. lia.
Qed.

Lemma sanitize_removes_only_periods (s : string) :
  RemovesOnlyPeriods s (sanitizeModelName s).
Proof.
  induction s as [|c s IH]; [constructor|].
  first_char c; now constructor.
Qed.

Lemma sanitize_fixed (s : string) :
  Js.includes_char period s = false -> sanitizeModelName s = s.
Proof.
  induction s as [|c s IH]; [reflexivity|].
  cbn [Js.includes_char]. intros H. apply orb_false_iff in H as [Hc Hs].
  apply Ascii.eqb_neq in Hc. rewrite sanitize_other by assumption.
  now rewrite IH.
Qed.

Lemma sanitize_filter (s : string) :
  chars (sanitizeModelName s)
  = List.filter (fun c => negb (Ascii.eqb c period)) (chars s).
Proof.
  unfold chars. induction s as [|c s IH]; [reflexivity|].
  first_char c; cbn [list_ascii_of_string List.filter].
  - rewrite eqb_period_refl. exact IH.
  - rewrite eqb_period_other by assumption. cbn [negb]. now rewrite IH.
Qed.

Lemma sanitize_sublist (s : string) :
  sublist (chars (sanitizeModelName s)) (chars s).
Proof.
  unfold chars. induction s as [|c s IH]; [constructor|].
  first_char c; cbn [list_ascii_of_string]; now constructor.
Qed.

Lemma includes_count (c : ascii) (s : string) :
  Js.includes_char c s = true -> 0 < Js.count_char c s.
Proof.
  induction s as [|a s IH]; [discriminate|].
  cbn [Js.includes_char Js.count_char].
  destruct (Ascii.eqb a c); [lia|]. cbn [orb]. intros H. apply IH in H. lia.
Qed.

(** C7. For every string, the result of [sanitizeModelName] has no
    period, its length is the length of the input less the number of
    periods in it, and it is the input with the periods dropped and
    nothing else changed; "gpt-3.5.turbo" becomes "gpt-35turbo". *)
Theorem sanitizeModelName_removes_periods (s : string) :
  Js.includes_char period (sanitizeModelName s) = false
  /\ String.length (sanitizeModelName s)
     = String.length s - Js.count_char period s
  /\ Js.count_char period s <= String.length s
  /\ RemovesOnlyPeriods s (sanitizeModelName s)
  /\ sanitizeModelName "gpt-3.5.turbo" = "gpt-35turbo".
Proof.
  pose proof (sanitize_length s) as L.
  split; [apply sanitize_no_period|].
  split; [lia|]. split; [lia|].
  split; [apply sanitize_removes_only_periods | reflexivity].
Qed.

(** C10. [sanitizeModelName] is idempotent, and its result is the
    subsequence of the input made of the characters other than the period,
    in their order. *)
Theorem sanitizeModelName_idempotent (s : string) :
  sanitizeModelName (sanitizeModelName s) = sanitizeModelName s
  /\ chars (sanitizeModelName s)
     = List.filter (fun c => negb (Ascii.eqb c period)) (chars s)
  /\ sublist (chars (sanitizeModelName s)) (chars s).
Proof.
  split; [apply sanitize_fixed, sanitize_no_period|].
  split; [apply sanitize_filter | apply sanitize_sublist].
Qed.

(** *** The deployment name in the URL *)

Lemma includes_append (c : ascii) (a b : string) :
  Js.includes_char c (a ++ b) = Js.includes_char c a || Js.includes_char c b.
Proof.
  induction a as [|x a IH]; [reflexivity|].
  rewrite append_cons. cbn [Js.includes_char]. now rewrite IH, orb_assoc.
Qed.

Lemma split_char_segment (sep : ascii) (a b : string) :
  Js.includes_char sep a = false ->
  split_char sep (a ++ String sep b) = a :: split_char sep b.
Proof.
  induction a as [|x a IH]; intros H.
  - rewrite append_empty. cbn [split_char]. now rewrite Ascii.eqb_refl.
  - cbn [Js.includes_char] in H. apply orb_false_iff in H as [Hx Ha].
    rewrite append_cons. cbn [split_char]. rewrite Hx.
    now rewrite (IH Ha).
Qed.




Lemma genAzureChatCompletion_throws (c : AzureCredentials) :
  empty_or_absent (azureOpenAIApiInstanceName c)
  \/ empty_or_absent (azureOpenAIApiDeploymentName c) ->
  genAzureChatCompletion c = ([], inl (new_Error endpoint_error_message)).
Proof.
  intros H. unfold genAzureChatCompletion.
  now rewrite (genAzureEndpoint_throws _ _ H).
Qed.


(** ** Further properties of the module *)

(** *** sanitizeModelName on composed names *)

Lemma sanitize_append (a b : string) :
  sanitizeModelName (a ++ b) = sanitizeModelName a ++ sanitizeModelName b.
Proof.
  induction a as [|c a IH]; [reflexivity|].
  rewrite append_cons. first_char c; [exact IH|].
  now rewrite IH, append_cons.
Qed.

Lemma sanitize_empty_iff (s : string) :
  sanitizeModelName s = "" <-> Js.count_char period s = String.length s.
Proof.
  pose proof (sanitize_length s) as L. split.
  - intros E. rewrite E in L. exact L.
  - intros E. destruct (sanitizeModelName s) as [|c t]; [reflexivity|].
    cbn [String.length] in L. lia.
Qed.

Lemma sanitize_count_other (c : ascii) (s : string) :
  c <> period ->
  Js.count_char c (sanitizeModelName s) = Js.count_char c s.
Proof.
  intros Hc. induction s as [|a s IH]; [reflexivity|].
  first_char a; cbn [Js.count_char].
  - destruct (Ascii.eqb period c) eqn:E; [|exact IH].
    apply Ascii.eqb_eq in E. congruence.
  - now rewrite IH.
Qed.

Lemma includes_count_iff (c : ascii) (s : string) :
  Js.includes_char c s = true <-> 0 < Js.count_char c s.
Proof.
  split; [apply includes_count|].
  induction s as [|a s IH]; cbn [Js.includes_char Js.count_char]; [lia|].
  destruct (Ascii.eqb a c); [reflexivity|]. cbn [orb]. intros H. apply IH. lia.
Qed.

Lemma sanitize_includes_other (c : ascii) (s : string) :
  c <> period ->
  Js.includes_char c (sanitizeModelName s) = Js.includes_char c s.
Proof.
  intros Hc. pose proof (sanitize_count_other c s Hc) as E.
  destruct (Js.includes_char c s) eqn:I.
  - apply includes_count_iff. rewrite E. now apply includes_count_iff.
  - destruct (Js.includes_char c (sanitizeModelName s)) eqn:I'; [|reflexivity].
    apply includes_count_iff in I'. rewrite E in I'.
    apply includes_count_iff in I'. congruence.
Qed.

Lemma append_cancel_l (a b c : string) : a ++ b = a ++ c -> b = c.
Proof.
  induction a as [|x a IH]; [trivial|].
  rewrite !append_cons. intros H. inversion H. auto.
Qed.

Lemma append_cancel_r (a b c : string) : a ++ c = b ++ c -> a = b.
Proof.
  revert b. induction a as [|x a IH]; intros [|y b] H.
  - reflexivity.
  - apply (f_equal String.length) in H. rewrite !append_length in H.
    cbn [String.length] in H. lia.
  - apply (f_equal String.length) in H. rewrite !append_length in H.
    cbn [String.length] in H. lia.
  - rewrite !append_cons in H. inversion H; subst. f_equal. now apply IH.
Qed.

(** X1. [sanitizeModelName] goes through concatenation: sanitizing a name
    built from two parts is sanitizing the parts. *)
Theorem sanitizeModelName_append (a b : string) :
  sanitizeModelName (a ++ b) = sanitizeModelName a ++ sanitizeModelName b.
Proof. apply sanitize_append. Qed.

(** X2. The names [sanitizeModelName] leaves unchanged are exactly the
    names without a period. *)
Theorem sanitizeModelName_fixed_iff (s : string) :
  sanitizeModelName s = s <-> Js.includes_char period s = false.
Proof.
  split.
  - intros E. rewrite <- E. apply sanitize_no_period.
  - apply sanitize_fixed.
Qed.

(** X3. The result of [sanitizeModelName] is the empty string exactly when
    every character of the name is a period (the empty name included). *)
Theorem sanitizeModelName_empty_iff (s : string) :
  sanitizeModelName s = "" <-> Js.count_char period s = String.length s.
Proof. apply sanitize_empty_iff. Qed.

(** X4. [sanitizeModelName] touches no character other than the period:
    each other character occurs in the result as often as in the name, so
    for instance a slash of the name is still in the result. *)
Theorem sanitizeModelName_keeps_other_characters (c : ascii) (s : string) :
  c <> period ->
  Js.count_char c (sanitizeModelName s) = Js.count_char c s
  /\ Js.includes_char c (sanitizeModelName s) = Js.includes_char c s.
Proof.
  intros Hc. split.
  - now apply sanitize_count_other.
  - now apply sanitize_includes_other.
Qed.

(** X5. [sanitizeModelName] is not injective: a name and the same name
    with a period put in anywhere are different names with the same
    result. *)
Theorem sanitizeModelName_collision (a b : string) :
  a ++ String period b <> a ++ b
  /\ sanitizeModelName (a ++ String period b) = sanitizeModelName (a ++ b).
Proof.
  split.
  - intros E. apply append_cancel_l in E.
    apply (f_equal String.length) in E. cbn [String.length] in E. lia.
  - now rewrite !sanitize_append, sanitize_period.
Qed.

(** *** The endpoint builders *)

Lemma split_endpoint (i d : string) :
  Js.includes_char "/" i = false ->
  split_char "/" ("https://" ++ i ++ ".openai.azure.com/openai/deployments/" ++ d)
  = "https:" :: "" :: (i ++ ".openai.azure.com")
      :: split_char "/" ("openai/deployments/" ++ d).
Proof.
  intros Hi.
  assert (E : "https://" ++ i ++ ".openai.azure.com/openai/deployments/" ++ d
              = "https:" ++ String "/" ("" ++ String "/"
                  ((i ++ ".openai.azure.com") ++ String "/"
                     ("openai/deployments/" ++ d)))).
  { rewrite append_assoc. reflexivity. }
  rewrite E.
  rewrite 3 split_char_segment; try reflexivity.
  rewrite includes_append, Hi. reflexivity.
Qed.

(** X6. For instance names without a slash the endpoint determines the
    configuration: two pairs of non-empty instance and deployment names with
    the same endpoint are the same pair. *)
Theorem genAzureEndpoint_injective (i d i' d' : string) :
  i <> "" -> d <> "" -> i' <> "" -> d' <> "" ->
  Js.includes_char "/" i = false -> Js.includes_char "/" i' = false ->
  snd (genAzureEndpoint (Some i) (Some d))
  = snd (genAzureEndpoint (Some i') (Some d')) ->
  i = i' /\ d = d'.
Proof.
  intros Hi Hd Hi' Hd' Si Si' E.
  rewrite (genAzureEndpoint_ok i d Hi Hd), (genAzureEndpoint_ok i' d' Hi' Hd') in E.
  cbn [snd] in E.
  assert (U : "https://" ++ i ++ ".openai.azure.com/openai/deployments/" ++ d
              = "https://" ++ i' ++ ".openai.azure.com/openai/deployments/" ++ d')
    by congruence.
  pose proof (f_equal (split_char "/") U) as S.
  rewrite (split_endpoint i d Si), (split_endpoint i' d' Si') in S.
  assert (Host : i ++ ".openai.azure.com" = i' ++ ".openai.azure.com")
    by congruence.
  apply append_cancel_r in Host. subst i'.
  split; [reflexivity|].
  apply append_cancel_l in U. apply append_cancel_l in U.
  now apply append_cancel_l in U.
Qed.

(** X7. [genAzureChatCompletion] does not check the version: for
    credentials without [azureOpenAIApiVersion] it does not throw, and the
    URL it returns ends in "api-version=undefined"; the key may be missing
    as well. *)
Theorem genAzureChatCompletion_undefined_version (k : option string) (i d : string) :
  i <> "" -> d <> "" ->
  snd (genAzureChatCompletion
         {| azureOpenAIApiKey := k; azureOpenAIApiInstanceName := Some i;
            azureOpenAIApiDeploymentName := Some d;
            azureOpenAIApiVersion := None |})
  = inr ("https://" ++ i ++ ".openai.azure.com/openai/deployments/" ++ d
         ++ "/chat/completions?api-version=undefined").
Proof.
  intros Hi Hd. now rewrite (genAzureChatCompletion_ok k None i d Hi Hd).
Qed.

(** X8. [genAzureChatCompletion] writes the URL it returns to the console,
    in one line "Generated Endpoint: {url}"; when it throws it writes
    nothing. *)
Theorem genAzureChatCompletion_console (c : AzureCredentials) :
  match snd (genAzureChatCompletion c) with
  | inr url =>
      fst (genAzureChatCompletion c)
      = [console_log [AStr ("Generated Endpoint: " ++ url)]]
  | inl _ => fst (genAzureChatCompletion c) = []
  end.
Proof.
  destruct c as [k oi od ov].
  destruct (genAzureEndpoint_cases oi od) as [(i & d & -> & -> & Hi & Hd)|H].
  - now rewrite (genAzureChatCompletion_ok k ov i d Hi Hd).
  - now rewrite genAzureChatCompletion_throws.
Qed.


(** X20. With a sanitized name as the deployment name, [genAzureEndpoint]
    throws exactly when the name consists of periods only (or is empty):
    such a name is sanitized to the empty string. *)
Theorem genAzureEndpoint_sanitized_name_throws (i name : string) :
  i <> "" ->
  (exists e,
      snd (genAzureEndpoint (Some i) (Some (sanitizeModelName name))) = inl e)
  <-> Js.count_char period name = String.length name.
Proof.
  intros Hi. rewrite <- sanitize_empty_iff.
  destruct (string_dec (sanitizeModelName name) "") as [E|E].
  - rewrite E, genAzureEndpoint_throws by (right; now right).
    split; [reflexivity | intros _; eexists; reflexivity].
  - rewrite (genAzureEndpoint_ok i _ Hi E). cbn [snd].
    split; [intros [e He]; discriminate | contradiction].
Qed.

(** *** Loading the credentials *)

Lemma getAzureCredentials_ext (env env' : gmap string string) :
  (forall name, In name required_variables -> env !! name = env' !! name) ->
  getAzureCredentials env = getAzureCredentials env'.
Proof.
  intros H. unfold getAzureCredentials.
  rewrite (H "AZURE_API_KEY"), (H "AZURE_OPENAI_API_INSTANCE_NAME"),
    (H "AZURE_OPENAI_API_DEPLOYMENT_NAME"), (H "AZURE_OPENAI_API_VERSION");
    [reflexivity | | | |]; unfold required_variables; cbn [In]; auto 6.
Qed.

(** X9. [getAzureCredentials] reads the four variables and nothing else:
    two environments that agree on them give the same result and the same
    console output. *)
Theorem getAzureCredentials_reads_four_variables (env env' : gmap string string) :
  (forall name, In name required_variables -> env !! name = env' !! name) ->
  getAzureCredentials env = getAzureCredentials env'.
Proof. apply getAzureCredentials_ext. Qed.

(** X10. Credentials returned by [getAzureCredentials] are always accepted
    by [genAzureChatCompletion]: the four fields are non-empty strings,
    nothing was written to the console, and the URL is built from them. *)
Theorem getAzureCredentials_then_genAzureChatCompletion
    (env : gmap string string) (c : AzureCredentials) :
  snd (getAzureCredentials env) = inr c ->
  fst (getAzureCredentials env) = []
  /\ exists k i d v : string,
      c = {| azureOpenAIApiKey := Some k; azureOpenAIApiInstanceName := Some i;
             azureOpenAIApiDeploymentName := Some d;
             azureOpenAIApiVersion := Some v |}
      /\ k <> "" /\ i <> "" /\ d <> "" /\ v <> ""
      /\ snd (genAzureChatCompletion c) = inr (chat_completions_url i d v).
Proof.
  intros Hc.
  destruct (required_variables_cases env)
    as [(k & i & d & v & Hk & Hi & Hd & Hv)|H].
  - rewrite (getAzureCredentials_ok env k i d v Hk Hi Hd Hv) in Hc |- *.
    cbn [fst snd] in Hc |- *. inversion Hc; subst c.
    split; [reflexivity|]. exists k, i, d, v.
    split; [reflexivity|].
    destruct Hk as [_ Hk], Hi as [_ Hi], Hd as [_ Hd], Hv as [_ Hv].
    repeat (split; [assumption|]).
    now rewrite (genAzureChatCompletion_ok (Some k) (Some v) i d Hi Hd).
  - rewrite (getAzureCredentials_throws env H) in Hc. discriminate.
Qed.

(** X11. When a variable is missing, the line [getAzureCredentials] writes
    to the console carries the credentials object as read, so a key that is
    set is written out with it. *)
Theorem getAzureCredentials_logs_credentials (env : gmap string string) (k : string) :
  env !! "AZURE_API_KEY" = Some k ->
  Exists (missing env) required_variables ->
  exists c,
    fst (getAzureCredentials env)
    = [console_error
         [AStr "One or more environment variables are missing or invalid:";
          ACredentials c]]
    /\ azureOpenAIApiKey c = Some k.
Proof.
  intros Hk H. rewrite (getAzureCredentials_throws env H). cbn [fst].
  eexists. split; [reflexivity|]. exact Hk.
Qed.

(** X12. Setting one of the four variables to the empty string, or
    deleting it, makes [getAzureCredentials] throw, whatever the rest of the
    environment is. *)
Theorem getAzureCredentials_unset_variable (env : gmap string string) (name : string) :
  In name required_variables ->
  snd (getAzureCredentials (<[name := ""]> env))
  = inl (new_Error environment_error_message)
  /\ snd (getAzureCredentials (delete name env))
     = inl (new_Error environment_error_message).
Proof.
  intros Hn. split.
  - rewrite getAzureCredentials_throws; [reflexivity|].
    apply List.Exists_exists. exists name. split; [exact Hn|].
    right. apply lookup_insert_eq.
  - rewrite getAzureCredentials_throws; [reflexivity|].
    apply List.Exists_exists. exists name. split; [exact Hn|].
    left. apply lookup_delete_eq.
Qed.

(** *** One call of sendChatMessage *)

Lemma provided_not_missing (env : gmap string string) (k i d v : string) :
  provided env "AZURE_API_KEY" k ->
  provided env "AZURE_OPENAI_API_INSTANCE_NAME" i ->
  provided env "AZURE_OPENAI_API_DEPLOYMENT_NAME" d ->
  provided env "AZURE_OPENAI_API_VERSION" v ->
  ~ Exists (missing env) required_variables.
Proof.
  intros Hk Hi Hd Hv H. unfold required_variables in H.
  rewrite !Exists_cons, Exists_nil, !missing_truthy in H.
  apply provided_lookup in Hk as [_ Tk], Hi as [_ Ti], Hd as [_ Td],
    Hv as [_ Tv].
  destruct H as [H|[H|[H|[H|[]]]]]; congruence.
Qed.

Lemma posts_sendChatMessage
    (axios : string -> Message -> AxiosConfig -> PromiseState AxiosResponse)
    (env : gmap string string) (payload : Message) (k i d v : string) :
  provided env "AZURE_API_KEY" k ->
  provided env "AZURE_OPENAI_API_INSTANCE_NAME" i ->
  provided env "AZURE_OPENAI_API_DEPLOYMENT_NAME" d ->
  provided env "AZURE_OPENAI_API_VERSION" v ->
  posts (fst (run axios (sendChatMessage env payload)))
  = [(chat_completions_url i d v, payload,
      {| config_headers := request_headers k |})].
Proof.
  intros Hk Hi Hd Hv.
  rewrite (run_sendChatMessage axios env payload k i d v Hk Hi Hd Hv).
  cbn zeta.
  destruct (axios _ _ _) as [r|error]; cbn [fst]; [reflexivity|].
  now rewrite posts_cons_console, posts_cons_post, posts_console.
Qed.

(** X13. Whatever the environment and whatever axios answers,
    [sendChatMessage] issues at most one POST: there is no retry.  It issues
    none exactly when one of the four variables is missing or empty. *)
Theorem sendChatMessage_at_most_one_post
    (axios : string -> Message -> AxiosConfig -> PromiseState AxiosResponse)
    (env : gmap string string) (payload : Message) :
  length (posts (fst (run axios (sendChatMessage env payload)))) <= 1
  /\ (posts (fst (run axios (sendChatMessage env payload))) = []
      <-> Exists (missing env) required_variables).
Proof.
  destruct (required_variables_cases env)
    as [(k & i & d & v & Hk & Hi & Hd & Hv)|H].
  - rewrite (posts_sendChatMessage axios env payload k i d v Hk Hi Hd Hv).
    split; [cbn; lia|].
    split; [discriminate|].
    intros H. now destruct (provided_not_missing env k i d v Hk Hi Hd Hv).
  - rewrite (run_sendChatMessage_missing axios env payload H). cbn [fst].
    rewrite posts_console. split; [cbn; lia|]. split; auto.
Qed.

(** X14. The promise of [sendChatMessage] is fulfilled only in one way:
    the four variables are set, axios fulfilled the POST with a response,
    and the value is the body of that response. *)
Theorem sendChatMessage_fulfilled_inv
    (axios : string -> Message -> AxiosConfig -> PromiseState AxiosResponse)
    (env : gmap string string) (payload : Message) (x : Data) :
  snd (run axios (sendChatMessage env payload)) = fulfilled x ->
  exists (k i d v : string) (r : AxiosResponse),
    provided env "AZURE_API_KEY" k
    /\ provided env "AZURE_OPENAI_API_INSTANCE_NAME" i
    /\ provided env "AZURE_OPENAI_API_DEPLOYMENT_NAME" d
    /\ provided env "AZURE_OPENAI_API_VERSION" v
    /\ axios (chat_completions_url i d v) payload
             {| config_headers := request_headers k |} = fulfilled r
    /\ x = data r.
Proof.
  destruct (required_variables_cases env)
    as [(k & i & d & v & Hk & Hi & Hd & Hv)|H].
  - rewrite (run_sendChatMessage axios env payload k i d v Hk Hi Hd Hv).
    cbn zeta.
    destruct (axios _ _ _) as [r|error] eqn:E; cbn [snd]; intros Hx.
    + exists k, i, d, v, r. inversion Hx. auto 10.
    + discriminate.
  - rewrite (run_sendChatMessage_missing axios env payload H). discriminate.
Qed.

(** X15. The promise of [sendChatMessage] is rejected for one of two
    reasons only: a variable is missing and the reason is the error of
    [getAzureCredentials], or the POST was issued and the reason is the
    error axios rejected it with. *)
Theorem sendChatMessage_rejected_inv
    (axios : string -> Message -> AxiosConfig -> PromiseState AxiosResponse)
    (env : gmap string string) (payload : Message) (reason : JsError) :
  snd (run axios (sendChatMessage env payload)) = rejected reason ->
  (Exists (missing env) required_variables
   /\ reason = new_Error environment_error_message)
  \/ (exists k i d v : string,
        provided env "AZURE_API_KEY" k
        /\ provided env "AZURE_OPENAI_API_INSTANCE_NAME" i
        /\ provided env "AZURE_OPENAI_API_DEPLOYMENT_NAME" d
        /\ provided env "AZURE_OPENAI_API_VERSION" v
        /\ axios (chat_completions_url i d v) payload
                 {| config_headers := request_headers k |} = rejected reason).
Proof.
  destruct (required_variables_cases env)
    as [(k & i & d & v & Hk & Hi & Hd & Hv)|H].
  - rewrite (run_sendChatMessage axios env payload k i d v Hk Hi Hd Hv).
    cbn zeta.
    destruct (axios _ _ _) as [r|error] eqn:E; cbn [snd]; intros Hx.
    + discriminate.
    + right. exists k, i, d, v. inversion Hx; subst. auto 10.
  - rewrite (run_sendChatMessage_missing axios env payload H). cbn [snd].
    intros Hx. left. inversion Hx. auto.
Qed.

(** X16. A successful call, in order: the endpoint is written to the
    console, the POST is issued, and the body of the response is written to
    the console before it is returned. *)
Theorem sendChatMessage_success_trace
    (axios : string -> Message -> AxiosConfig -> PromiseState AxiosResponse)
    (env : gmap string string) (payload : Message) (k i d v : string)
    (r : AxiosResponse) :
  provided env "AZURE_API_KEY" k ->
  provided env "AZURE_OPENAI_API_INSTANCE_NAME" i ->
  provided env "AZURE_OPENAI_API_DEPLOYMENT_NAME" d ->
  provided env "AZURE_OPENAI_API_VERSION" v ->
  axios (chat_completions_url i d v) payload
        {| config_headers := request_headers k |} = fulfilled r ->
  fst (run axios (sendChatMessage env payload))
  = [EvConsole
       (console_log [AStr ("Generated Endpoint: " ++ chat_completions_url i d v)]);
     EvPost (chat_completions_url i d v) payload
       {| config_headers := request_headers k |};
     EvConsole (console_log [AStr "Response:"; AData (data r)])].
Proof.
  intros Hk Hi Hd Hv Hr.
  rewrite (run_sendChatMessage axios env payload k i d v Hk Hi Hd Hv).
  cbn zeta. now rewrite Hr.
Qed.

(** X17. A call whose POST gets no response: when axios rejects with an
    error that has no [response] but has a [request], the events are, in
    order, the endpoint line, the POST, the line "Error sending chat
    message:" with the message of the error, and a line with the request
    object of the error as axios handed it over, printed as it is; the
    promise is rejected with that error. *)
Theorem sendChatMessage_no_response_trace
    (axios : string -> Message -> AxiosConfig -> PromiseState AxiosResponse)
    (env : gmap string string) (payload : Message) (k i d v : string)
    (error : JsError) (rq : ClientRequest) :
  provided env "AZURE_API_KEY" k ->
  provided env "AZURE_OPENAI_API_INSTANCE_NAME" i ->
  provided env "AZURE_OPENAI_API_DEPLOYMENT_NAME" d ->
  provided env "AZURE_OPENAI_API_VERSION" v ->
  axios (chat_completions_url i d v) payload
        {| config_headers := request_headers k |} = rejected error ->
  response error = None ->
  request error = Some rq ->
  run axios (sendChatMessage env payload)
  = ([EvConsole
        (console_log [AStr ("Generated Endpoint: " ++ chat_completions_url i d v)]);
      EvPost (chat_completions_url i d v) payload
        {| config_headers := request_headers k |};
      EvConsole
        (console_error [AStr "Error sending chat message:"; AStr (message error)]);
      EvConsole (console_error [ARequest rq])],
     rejected error).
Proof.
  intros Hk Hi Hd Hv He Hresp Hreq.
  rewrite (run_sendChatMessage axios env payload k i d v Hk Hi Hd Hv).
  cbn zeta. rewrite He.
  unfold diagnostics, failure_mode. rewrite Hresp, Hreq. reflexivity.
Qed.

(** X18. [sendChatMessage] depends on the environment through the four
    variables only: in two environments that agree on them it is the same
    computation. *)
Theorem sendChatMessage_reads_four_variables
    (env env' : gmap string string) (payload : Message) :
  (forall name, In name required_variables -> env !! name = env' !! name) ->
  sendChatMessage env payload = sendChatMessage env' payload.
Proof.
  intros H. unfold sendChatMessage.
  now rewrite (getAzureCredentials_ext env env' H).
Qed.

End AzureUtils.

Arguments fulfilled {Data Headers ClientRequest A} value.
Arguments rejected {Data Headers ClientRequest A} reason.
Arguments Settle {Message Data Headers ClientRequest A} s.
Arguments Write {Message Data Headers ClientRequest A} l k.
Arguments AwaitPost {Message Data Headers ClientRequest A} url body config k.

(** ** The properties at concrete inputs

    The payload types are instantiated: messages and response bodies are
    strings, response headers a list of pairs, and the request object of an
    error carries nothing. *)

Ltac by_lookup := split; [vm_compute; reflexivity | discriminate].

Lemma sendChatMessage_resolves_witness :
  snd (run (Message := string) (ClientRequest := unit)
           (fun _ _ _ =>
              fulfilled {| data := "{choices:[]}"; status := 200%Z;
                           headers := [("content-type", "application/json")] |})
           (sendChatMessage Sample.env "hello"))
  = fulfilled "{choices:[]}".
Proof.
  apply (sendChatMessage_resolves
           (fun _ _ _ =>
              fulfilled {| data := "{choices:[]}"; status := 200%Z;
                           headers := [("content-type", "application/json")] |})
           Sample.env "hello" "x" "foo" "bar" "2023-05-15"
           {| data := "{choices:[]}"; status := 200%Z;
              headers := [("content-type", "application/json")] |});
    try by_lookup.
  reflexivity.
Defined.

Lemma sendChatMessage_rejects_witness :
  exists reason,
    snd (run (Message := string)
             (fun _ _ _ =>
                rejected
                  {| message := "Request failed with status code 401";
                     response :=
                       Some {| data := "denied"; status := 401%Z;
                               headers := [("www-authenticate", "Bearer")] |};
                     request := Some tt |})
             (sendChatMessage Sample.env "hello")) = rejected reason
    /\ message reason = "Request failed with status code 401"
    /\ failure_mode reason
       = ServerResponded {| data := "denied"; status := 401%Z;
                            headers := [("www-authenticate", "Bearer")] |}.
Proof.
  set (denied := {| data := "denied"; status := 401%Z;
                    headers := [("www-authenticate", "Bearer")] |}).
  set (error := {| message := "Request failed with status code 401";
                   response := Some denied; request := Some tt |}).
  destruct (sendChatMessage_rejects (fun _ _ _ => rejected error) Sample.env "hello"
              "x" "foo" "bar" "2023-05-15" error) as (H & _ & Hr & _);
    try by_lookup; [reflexivity|].
  destruct H as (reason & Hrun & -> & _).
  exists error. split; [exact Hrun|]. split; [reflexivity|].
  exact (proj1 (Hr denied eq_refl)).
Defined.

Lemma sendChatMessage_configuration_error_witness :
  Exists (missing Sample.env_without_key) required_variables
  /\ exists out e,
      settles_before_await
        (sendChatMessage (Message := string) (Data := string)
           (Headers := list (string * string)) (ClientRequest := unit)
           Sample.env_without_key "hello")
      = Some (out, rejected e)
      /\ e = new_Error environment_error_message
      /\ ConfigurationError e
      /\ forall axios,
          run axios (sendChatMessage Sample.env_without_key "hello")
          = (map EvConsole out, rejected e)
          /\ posts (fst (run axios (sendChatMessage Sample.env_without_key "hello")))
             = [].
Proof.
  assert (H : Exists (missing Sample.env_without_key) required_variables).
  { apply Exists_cons_hd. left. vm_compute. reflexivity. }
  split; [exact H|].
  exact (sendChatMessage_configuration_error Sample.env_without_key "hello" H).
Defined.

Lemma genAzureEndpoint_spec_witness :
  genAzureEndpoint (Data := string) (Headers := list (string * string))
    (ClientRequest := unit) (Some "foo") (Some "bar")
  = ([], inr "https://foo.openai.azure.com/openai/deployments/bar")
  /\ exists e,
      genAzureEndpoint (Data := string) (Headers := list (string * string))
        (ClientRequest := unit) (Some "") (Some "bar") = ([], inl e)
      /\ ConfigurationError e.
Proof.
  split.
  - apply (proj1 genAzureEndpoint_spec "foo" "bar"); discriminate.
  - apply (proj2 genAzureEndpoint_spec (Some "") (Some "bar")).
    left. right. reflexivity.
Defined.

Lemma genAzureChatCompletion_spec_witness :
  snd (genAzureChatCompletion (Data := string) (Headers := list (string * string))
         (ClientRequest := unit)
         {| azureOpenAIApiKey := Some "x";
            azureOpenAIApiInstanceName := Some "foo";
            azureOpenAIApiDeploymentName := Some "bar";
            azureOpenAIApiVersion := Some "2023-05-15" |})
  = inr "https://foo.openai.azure.com/openai/deployments/bar/chat/completions?api-version=2023-05-15".
Proof.
  exact (proj1 (genAzureChatCompletion_spec
                  {| azureOpenAIApiKey := Some "x";
                     azureOpenAIApiInstanceName := Some "foo";
                     azureOpenAIApiDeploymentName := Some "bar";
                     azureOpenAIApiVersion := Some "2023-05-15" |})).
Defined.

Lemma getAzureCredentials_spec_witness :
  getAzureCredentials (Data := string) (Headers := list (string * string))
    (ClientRequest := unit) Sample.env
  = ([], inr {| azureOpenAIApiKey := Some "x";
                azureOpenAIApiInstanceName := Some "foo";
                azureOpenAIApiDeploymentName := Some "bar";
                azureOpenAIApiVersion := Some "2023-05-15" |}).
Proof.
  apply (proj2 (proj2 (getAzureCredentials_spec Sample.env))); by_lookup.
Defined.

Lemma sendChatMessage_single_post_witness :
  exists credentials url,
    snd (getAzureCredentials (Data := string) (Headers := list (string * string))
           (ClientRequest := unit) Sample.env) = inr credentials
    /\ azureOpenAIApiKey credentials = Some "x"
    /\ snd (genAzureChatCompletion (Data := string)
              (Headers := list (string * string)) (ClientRequest := unit)
              credentials) = inr url
    /\ url = chat_completions_url "foo" "bar" "2023-05-15"
    /\ posts (fst (run (Message := string) (Data := string)
                      (Headers := list (string * string)) (ClientRequest := unit)
                      (fun _ _ _ => rejected (new_Error "connect ECONNREFUSED"))
                      (sendChatMessage Sample.env "hello")))
       = [(url, "hello",
           {| config_headers :=
                [("Content-Type", "application/json");
                 ("Authorization", "Bearer x")] |})].
Proof.
  apply (sendChatMessage_single_post
           (fun _ _ _ => rejected (new_Error "connect ECONNREFUSED"))
           Sample.env "hello" "x" "foo" "bar" "2023-05-15"); by_lookup.
Defined.



(** ** The further properties at concrete inputs *)

Ltac by_agreement :=
  intros name [<-|[<-|[<-|[<-|[]]]]]; vm_compute; reflexivity.

Lemma sanitizeModelName_keeps_other_characters_witness :
  Js.count_char "/" (sanitizeModelName "models/gpt-3.5")
  = Js.count_char "/" "models/gpt-3.5"
  /\ Js.includes_char "/" (sanitizeModelName "models/gpt-3.5")
     = Js.includes_char "/" "models/gpt-3.5".
Proof.
  apply (sanitizeModelName_keeps_other_characters "/" "models/gpt-3.5").
  discriminate.
Defined.

Lemma genAzureEndpoint_injective_witness :
  snd (genAzureEndpoint (Data := string) (Headers := list (string * string))
         (ClientRequest := unit) (Some "foo") (Some "bar"))
  = inr "https://foo.openai.azure.com/openai/deployments/bar"
  /\ "foo" = "foo" /\ "bar" = "bar".
Proof.
  split; [reflexivity|].
  apply (genAzureEndpoint_injective (Data := string)
           (Headers := list (string * string)) (ClientRequest := unit)
           "foo" "bar" "foo" "bar"); try discriminate; reflexivity.
Defined.

Lemma genAzureChatCompletion_undefined_version_witness :
  snd (genAzureChatCompletion (Data := string) (Headers := list (string * string))
         (ClientRequest := unit)
         {| azureOpenAIApiKey := None; azureOpenAIApiInstanceName := Some "foo";
            azureOpenAIApiDeploymentName := Some "bar";
            azureOpenAIApiVersion := None |})
  = inr "https://foo.openai.azure.com/openai/deployments/bar/chat/completions?api-version=undefined".
Proof.
  apply (genAzureChatCompletion_undefined_version None "foo" "bar");
    discriminate.
Defined.


Lemma genAzureEndpoint_sanitized_name_throws_witness :
  exists e,
    snd (genAzureEndpoint (Data := string) (Headers := list (string * string))
           (ClientRequest := unit) (Some "foo") (Some (sanitizeModelName "...")))
    = inl e.
Proof.
  apply (genAzureEndpoint_sanitized_name_throws "foo" "...");
    [discriminate | reflexivity].
Defined.

Lemma getAzureCredentials_reads_four_variables_witness :
  getAzureCredentials (Data := string) (Headers := list (string * string))
    (ClientRequest := unit) Sample.env
  = getAzureCredentials Sample.env_with_extra.
Proof.
  apply (getAzureCredentials_reads_four_variables Sample.env Sample.env_with_extra).
  by_agreement.
Defined.

Lemma getAzureCredentials_then_genAzureChatCompletion_witness :
  exists k i d v : string,
    {| azureOpenAIApiKey := Some "x"; azureOpenAIApiInstanceName := Some "foo";
       azureOpenAIApiDeploymentName := Some "bar";
       azureOpenAIApiVersion := Some "2023-05-15" |}
    = {| azureOpenAIApiKey := Some k; azureOpenAIApiInstanceName := Some i;
         azureOpenAIApiDeploymentName := Some d;
         azureOpenAIApiVersion := Some v |}
    /\ k <> "" /\ i <> "" /\ d <> "" /\ v <> ""
    /\ snd (genAzureChatCompletion (Data := string)
              (Headers := list (string * string)) (ClientRequest := unit)
              {| azureOpenAIApiKey := Some "x";
                 azureOpenAIApiInstanceName := Some "foo";
                 azureOpenAIApiDeploymentName := Some "bar";
                 azureOpenAIApiVersion := Some "2023-05-15" |})
       = inr (chat_completions_url i d v).
Proof.
  apply (getAzureCredentials_then_genAzureChatCompletion Sample.env
           {| azureOpenAIApiKey := Some "x";
              azureOpenAIApiInstanceName := Some "foo";
              azureOpenAIApiDeploymentName := Some "bar";
              azureOpenAIApiVersion := Some "2023-05-15" |}).
  vm_compute. reflexivity.
Defined.

Lemma getAzureCredentials_logs_credentials_witness :
  exists c,
    fst (getAzureCredentials (Data := string) (Headers := list (string * string))
           (ClientRequest := unit) Sample.env_without_version)
    = [console_error
         [AStr "One or more environment variables are missing or invalid:";
          ACredentials c]]
    /\ azureOpenAIApiKey c = Some "x".
Proof.
  apply (getAzureCredentials_logs_credentials Sample.env_without_version "x").
  - vm_compute. reflexivity.
  - do 3 apply Exists_cons_tl. apply Exists_cons_hd. left. vm_compute. reflexivity.
Defined.

Lemma getAzureCredentials_unset_variable_witness :
  snd (getAzureCredentials (Data := string) (Headers := list (string * string))
         (ClientRequest := unit) (<["AZURE_API_KEY" := ""]> Sample.env))
  = inl (new_Error environment_error_message)
  /\ snd (getAzureCredentials (Data := string) (Headers := list (string * string))
            (ClientRequest := unit) (delete "AZURE_API_KEY" Sample.env))
     = inl (new_Error environment_error_message).
Proof.
  apply (getAzureCredentials_unset_variable Sample.env "AZURE_API_KEY").
  left. reflexivity.
Defined.

Lemma sendChatMessage_fulfilled_inv_witness :
  exists (k i d v : string) (r : AxiosResponse (Data := string)
                                   (Headers := list (string * string))),
    provided Sample.env "AZURE_API_KEY" k
    /\ provided Sample.env "AZURE_OPENAI_API_INSTANCE_NAME" i
    /\ provided Sample.env "AZURE_OPENAI_API_DEPLOYMENT_NAME" d
    /\ provided Sample.env "AZURE_OPENAI_API_VERSION" v
    /\ "ok" = data r.
Proof.
  destruct (sendChatMessage_fulfilled_inv (Message := string) (ClientRequest := unit)
              (fun _ _ _ =>
                 fulfilled {| data := "ok"; status := 200%Z;
                              headers := [("content-type", "application/json")] |})
              Sample.env "hello" "ok")
    as (k & i & d & v & r & Hk & Hi & Hd & Hv & _ & Hr).
  - vm_compute. reflexivity.
  - exists k, i, d, v, r. auto.
Defined.

Lemma sendChatMessage_rejected_inv_witness :
  Exists (missing Sample.env_without_key) required_variables
  \/ exists k : string, provided Sample.env_without_key "AZURE_API_KEY" k.
Proof.
  destruct (sendChatMessage_rejected_inv (Message := string) (Data := string)
              (Headers := list (string * string)) (ClientRequest := unit)
              (fun _ _ _ => rejected (new_Error "connect ECONNREFUSED"))
              Sample.env_without_key "hello"
              (new_Error environment_error_message))
    as [[H _]|(k & _ & _ & _ & Hk & _)].
  - vm_compute. reflexivity.
  - left. exact H.
  - right. exists k. exact Hk.
Defined.

Lemma sendChatMessage_success_trace_witness :
  fst (run (Message := string) (ClientRequest := unit)
           (fun _ _ _ =>
              fulfilled {| data := "ok"; status := 200%Z;
                           headers := [("content-type", "application/json")] |})
           (sendChatMessage Sample.env "hello"))
  = [EvConsole
       (console_log
          [AStr "Generated Endpoint: https://foo.openai.azure.com/openai/deployments/bar/chat/completions?api-version=2023-05-15"]);
     EvPost
       "https://foo.openai.azure.com/openai/deployments/bar/chat/completions?api-version=2023-05-15"
       "hello"
       {| config_headers :=
            [("Content-Type", "application/json");
             ("Authorization", "Bearer x")] |};
     EvConsole (console_log [AStr "Response:"; AData "ok"])].
Proof.
  apply (sendChatMessage_success_trace
           (fun _ _ _ =>
              fulfilled {| data := "ok"; status := 200%Z;
                           headers := [("content-type", "application/json")] |})
           Sample.env "hello" "x" "foo" "bar" "2023-05-15"
           {| data := "ok"; status := 200%Z;
              headers := [("content-type", "application/json")] |});
    try by_lookup.
  reflexivity.
Defined.

Lemma sendChatMessage_no_response_trace_witness :
  run (Message := string) (Data := string) (Headers := list (string * string))
      (ClientRequest := AxiosConfig)
      (fun _ _ config =>
         rejected {| message := "connect ECONNREFUSED"; response := None;
                     request := Some config |})
      (sendChatMessage Sample.env "hello")
  = ([EvConsole
        (console_log
           [AStr "Generated Endpoint: https://foo.openai.azure.com/openai/deployments/bar/chat/completions?api-version=2023-05-15"]);
      EvPost
        "https://foo.openai.azure.com/openai/deployments/bar/chat/completions?api-version=2023-05-15"
        "hello"
        {| config_headers :=
             [("Content-Type", "application/json");
              ("Authorization", "Bearer x")] |};
      EvConsole
        (console_error
           [AStr "Error sending chat message:"; AStr "connect ECONNREFUSED"]);
      EvConsole
        (console_error
           [ARequest
              {| config_headers :=
                   [("Content-Type", "application/json");
                    ("Authorization", "Bearer x")] |}])],
     rejected {| message := "connect ECONNREFUSED"; response := None;
                 request :=
                   Some {| config_headers :=
                             [("Content-Type", "application/json");
                              ("Authorization", "Bearer x")] |} |}).
Proof.
  apply (sendChatMessage_no_response_trace
           (fun _ _ config =>
              rejected {| message := "connect ECONNREFUSED"; response := None;
                          request := Some config |})
           Sample.env "hello" "x" "foo" "bar" "2023-05-15"
           {| message := "connect ECONNREFUSED"; response := None;
              request := Some {| config_headers := request_headers "x" |} |}
           {| config_headers := request_headers "x" |});
    try by_lookup; reflexivity.
Defined.

Lemma sendChatMessage_reads_four_variables_witness :
  sendChatMessage (Message := string) (Data := string)
    (Headers := list (string * string)) (ClientRequest := unit)
    Sample.env "hello"
  = sendChatMessage Sample.env_with_extra "hello".
Proof.
  apply (sendChatMessage_reads_four_variables Sample.env Sample.env_with_extra).
  by_agreement.
Defined.
